(** * erlotinib: population models, parameter reduction and the data library

    A shallow embedding of [erlotinib/_population_models.py] and
    [erlotinib/_data_library_api.py], together with the [ReducedLogPDF] its
    specification describes, and the properties stated about them.

    Python objects are records, methods that mutate [self] are functions in
    a state-and-exception monad over the record, and raised exceptions are
    values of [exn].  Parameter vectors are lists of IEEE binary64 numbers
    (Rocq's primitive [float]); the library functions whose results are not
    fixed by IEEE 754 are the fields of the class [NumPy]. *)

From Stdlib Require Import String DecimalString Bool ZArith Lia List.
From Stdlib Require Import Floats.PrimFloat Floats.SpecFloat Floats.FloatOps.
From Stdlib Require DecimalZ DecimalPos.
Import ListNotations.

Set Implicit Arguments.

(* ================================================================== *)
(** ** Python values, exceptions and results *)

(** The exception classes raised by the modelled code. *)
Inductive exn : Set :=
| ValueError
| NotImplementedError
| OverflowError.

Inductive result (A : Type) : Type :=
| Ok (a : A)
| Raise (e : exn).
Arguments Ok {A} a.
Arguments Raise {A} e.

Definition raises {A : Type} (r : result A) (e : exn) : Prop := r = Raise e.

(** What a caller may hand over as an identifier or a name: the setters
    only ever apply [str] to it. *)
Inductive label : Set :=
| LInt (z : Z)
| LStr (s : string).

(** The text of a label: the decimal digits of an int, a string itself. *)
Definition text (x : label) : string :=
  match x with
  | LInt z => NilZero.string_of_int (Z.to_int z)
  | LStr s => s
  end.

(** [sys.get_int_max_str_digits()], at its default. *)
Definition int_max_str_digits : nat := 4300.

(** The number of decimal digits of an int, its sign apart. *)
Definition int_digits (z : Z) : nat :=
  match Z.to_int z with
  | Decimal.Pos d | Decimal.Neg d => Decimal.nb_digits d
  end.

(** An int whose decimal form has more digits than the interpreter
    converts. *)
Definition exceeds_str_digits (x : label) : bool :=
  match x with
  | LInt z => int_max_str_digits <? int_digits z
  | LStr _ => false
  end.

(** Python's [str] on a label: the conversion of an int with more than
    [int_max_str_digits] digits raises [ValueError]. *)
Definition str (x : label) : result string :=
  if exceeds_str_digits x then Raise ValueError else Ok (text x).

(** The comprehension [[str(label) for label in labels]]: the first
    conversion that raises ends it. *)
Fixpoint strs (labels : list label) : result (list string) :=
  match labels with
  | [] => Ok []
  | x :: labels' =>
      match str x with
      | Raise e => Raise e
      | Ok s =>
          match strs labels' with
          | Raise e => Raise e
          | Ok l => Ok (s :: l)
          end
      end
  end.

(** A log-likelihood score: the literal [0] is a Python int, everything
    computed with numpy is a float. *)
Inductive score : Set :=
| PyInt (z : Z)
| PyFloat (f : float).

(** What [sample] hands back: an array, or [None] when the body falls off
    its end. *)
Inductive sampled : Set :=
| PyNone
| PyArray (a : list float).

(** Conversion of a Python int to a float (round to nearest even). *)
Definition float_of_Z (z : Z) : float :=
  SF2Prim (binary_normalize prec emax z 0 false).

(* ================================================================== *)
(** ** The library functions the module calls

    Those of numpy, and the C library's [pow], which the interpreter calls
    for [**] on two Python floats. *)

Class NumPy : Type := {
  np_log : float -> float;          (* np.log on one element *)
  np_sum : list float -> float;     (* np.sum on a 1-d array *)
  np_power : float -> Z -> float;   (* x ** k on the elements of an array *)
  libm_pow : float -> float -> float    (* C's pow *)
}.

(** [iv ** 2] on a Python float, as [float_pow] computes it for the
    exponent [2.0]: NaN and the infinities are answered directly (the
    exponent is positive and even), so are zero and, after a negative
    base is replaced by its absolute value, one; every other base goes to
    C's [pow], and an infinite result is the range error that becomes
    [OverflowError]. *)
Definition float_pow2 {np : NumPy} (iv : float) : result float :=
  if is_nan iv then Ok iv
  else if is_infinity iv then Ok infinity
  else if (iv =? 0)%float then Ok 0%float
  else
    let iv := abs iv in
    if (iv =? 1)%float then Ok 1%float
    else
      let ix := libm_pow iv 2 in
      if is_infinity ix then Raise OverflowError else Ok ix.

(** The extent from which numpy refuses a float64 array as too big: eight
    bytes an element, and sizes that fit a signed 64-bit integer. *)
Definition max_extent : Z := 2 ^ 60.

(** [np.broadcast_to(a, shape=(n,))] on a 1-d float64 array: a negative
    extent is rejected, and so is one of [max_extent] or more; an array of
    one element is repeated, an array that already has [n] elements is
    kept, and nothing else broadcasts. *)
Definition np_broadcast_to (a : list float) (n : Z) : result (list float) :=
  if (n <? 0)%Z then Raise ValueError
  else if (max_extent <=? n)%Z then Raise ValueError
  else match a with
       | [x] => Ok (repeat x (Z.to_nat n))
       | _ => if (Z.of_nat (length a) =? n)%Z then Ok a else Raise ValueError
       end.

(* ================================================================== *)
(** ** Population models *)

Inductive class : Set :=
| Heterogeneous
| LogNormal
| Pooled.

(** The attributes of a population model instance. *)
Record model : Set := Model {
  cls : class;
  _n_ids : nat;
  _ids : option (list string);
  _bottom_parameter_name : string;
  _n_bottom_parameters : nat;
  _n_top_parameters : nat;
  _n_parameters : nat;
  _top_parameter_names : option (list string)
}.

Definition with_ids (self : model) (v : option (list string)) : model :=
  Model (cls self) (_n_ids self) v (_bottom_parameter_name self)
        (_n_bottom_parameters self) (_n_top_parameters self)
        (_n_parameters self) (_top_parameter_names self).

Definition with_bottom_parameter_name (self : model) (v : string) : model :=
  Model (cls self) (_n_ids self) (_ids self) v
        (_n_bottom_parameters self) (_n_top_parameters self)
        (_n_parameters self) (_top_parameter_names self).

Definition with_top_parameter_names (self : model)
    (v : option (list string)) : model :=
  Model (cls self) (_n_ids self) (_ids self) (_bottom_parameter_name self)
        (_n_bottom_parameters self) (_n_top_parameters self)
        (_n_parameters self) v.

(** *** Constructors ([__init__]) *)

Definition HeterogeneousModel (n_ids : nat) : model :=
  let n_bottom := n_ids in
  let n_top := 0 in
  Model Heterogeneous n_ids None "Bottom param"
        n_bottom n_top (n_bottom + n_top) None.

Definition LogNormalModel (n_ids : nat) : model :=
  let n_bottom := n_ids in
  let n_top := 2 in
  Model LogNormal n_ids None "Bottom param"
        n_bottom n_top (n_bottom + n_top) (Some ["Mean"; "Std."]%string).

Definition PooledModel (n_ids : nat) : model :=
  let n_bottom := 0 in
  let n_top := 1 in
  Model Pooled n_ids None "Bottom param"
        n_bottom n_top (n_bottom + n_top) (Some ["Pooled"]%string).

Definition init (c : class) (n_ids : nat) : model :=
  match c with
  | Heterogeneous => HeterogeneousModel n_ids
  | LogNormal => LogNormalModel n_ids
  | Pooled => PooledModel n_ids
  end.

(** *** Methods that mutate [self]

    A method takes the object and gives back its outcome together with the
    object as the call left it; an exception does not roll anything back. *)

Definition method (A : Type) : Type := model -> result A * model.

Definition ret {A : Type} (a : A) : method A := fun self => (Ok a, self).

Definition raise {A : Type} (e : exn) : method A :=
  fun self => (Raise e, self).

Definition bind {A B : Type} (m : method A) (k : A -> method B) : method B :=
  fun self =>
    match m self with
    | (Ok a, self') => k a self'
    | (Raise e, self') => (Raise e, self')
    end.

Definition get_self : method model := fun self => (Ok self, self).

Definition assign (f : model -> model) : method unit :=
  fun self => (Ok tt, f self).

Notation "x <- m ;; k" := (bind m (fun x => k))
  (at level 61, m at next level, right associativity).
Notation "m ;;; k" := (bind m (fun _ => k))
  (at level 61, right associativity).

(** [if cond: raise e] *)
Definition raise_if (cond : bool) (e : exn) : method unit :=
  if cond then raise e else ret tt.

(** An expression that does not touch [self], evaluated inside a method. *)
Definition eval {A : Type} (r : result A) : method A :=
  fun self => (r, self).

(** [PopulationModel.set_ids]: the right-hand side is evaluated, and may
    raise, before the attribute is assigned. *)
Definition set_ids (ids : list label) : method unit :=
  self <- get_self ;;
  raise_if (negb (length ids =? _n_ids self)) ValueError ;;;
  labels <- eval (strs ids) ;;
  assign (fun s => with_ids s (Some labels)).

(** [PopulationModel.set_bottom_parameter_name] *)
Definition set_bottom_parameter_name (name : label) : method unit :=
  label <- eval (str name) ;;
  assign (fun s => with_bottom_parameter_name s label).

(** [LogNormalModel.set_top_parameter_names] *)
Definition LogNormalModel_set_top_parameter_names (names : list label)
    : method unit :=
  self <- get_self ;;
  raise_if (negb (length names =? _n_top_parameters self)) ValueError ;;;
  labels <- eval (strs names) ;;
  assign (fun s => with_top_parameter_names s (Some labels)).

(** [PooledModel.set_top_parameter_names] *)
Definition PooledModel_set_top_parameter_names (names : list label)
    : method unit :=
  self <- get_self ;;
  raise_if (negb (length names =? _n_top_parameters self)) ValueError ;;;
  labels <- eval (strs names) ;;
  assign (fun s => with_top_parameter_names s (Some labels)).

(** [HeterogeneousModel.set_top_parameter_names] *)
Definition HeterogeneousModel_set_top_parameter_names (names : list label)
    : method unit :=
  raise ValueError.

Definition set_top_parameter_names (names : list label) : method unit :=
  self <- get_self ;;
  match cls self with
  | Heterogeneous => HeterogeneousModel_set_top_parameter_names names
  | LogNormal => LogNormalModel_set_top_parameter_names names
  | Pooled => PooledModel_set_top_parameter_names names
  end.

(** *** Getters *)

Definition get_bottom_parameter_name (self : model) : string :=
  _bottom_parameter_name self.
Definition get_ids (self : model) : option (list string) := _ids self.
Definition get_top_parameter_names (self : model) : option (list string) :=
  _top_parameter_names self.
Definition n_bottom_parameters (self : model) : nat :=
  _n_bottom_parameters self.
Definition n_ids (self : model) : nat := _n_ids self.
Definition n_parameters (self : model) : nat := _n_parameters self.
Definition n_parameters_per_id (self : model) : nat := 1.
Definition n_top_parameters (self : model) : nat := _n_top_parameters self.

(** *** Methods that only read [self] *)

Section Evaluation.
Context {np : NumPy}.
Open Scope float_scope.

(** [HeterogeneousModel.__call__] *)
Definition HeterogeneousModel_call (self : model) (parameters : list float)
    : result score :=
  Ok (PyInt 0).

(** [PooledModel.__call__] *)
Definition PooledModel_call (self : model) (parameters : list float)
    : result score :=
  Ok (PyInt 0).

(** The score expression of [LogNormalModel.__call__]; [std_log_2] is the
    value of [std_log ** 2]. *)
Definition log_normal_score (n_ids : nat) (log_psis : list float)
    (mean_log std_log std_log_2 : float) : float :=
  float_of_Z (- Z.of_nat n_ids) * np_log std_log - np_sum log_psis
  - np_sum (map (fun x => np_power (x - mean_log) 2) log_psis)
    / (2 * std_log_2).

(** [LogNormalModel.__call__] on a Python list of floats: the two slices,
    the unpacking of the second one into exactly two names, the guard and
    the score.  [log_psis] is a numpy array, whose arithmetic never raises;
    [std_log] is a Python float, whose square can. *)
Definition LogNormalModel_call (self : model) (parameters : list float)
    : result score :=
  let log_psis := map np_log (firstn (_n_ids self) parameters) in
  match skipn (_n_ids self) parameters with
  | [mean_log; std_log] =>
      if (mean_log <=? 0) || (std_log <=? 0) then Ok (PyFloat neg_infinity)
      else
        match float_pow2 std_log with
        | Raise e => Raise e
        | Ok std_log_2 =>
            Ok (PyFloat (log_normal_score (_n_ids self) log_psis
                                          mean_log std_log std_log_2))
        end
  | _ => Raise ValueError
  end.

Definition call (self : model) (parameters : list float) : result score :=
  match cls self with
  | Heterogeneous => HeterogeneousModel_call self parameters
  | LogNormal => LogNormalModel_call self parameters
  | Pooled => PooledModel_call self parameters
  end.

(** [PopulationModel.sample], which [HeterogeneousModel] inherits. *)
Definition PopulationModel_sample (self : model) (top_parameters : list float)
    (n : option Z) : result sampled :=
  Raise NotImplementedError.

(** [LogNormalModel.sample]: the length check is the whole body. *)
Definition LogNormalModel_sample (self : model) (top_parameters : list float)
    (n : option Z) : result sampled :=
  if negb (length top_parameters =? _n_top_parameters self)%nat
  then Raise ValueError
  else Ok PyNone.

(** [PooledModel.sample] *)
Definition PooledModel_sample (self : model) (top_parameters : list float)
    (n : option Z) : result sampled :=
  if negb (length top_parameters =? _n_top_parameters self)%nat
  then Raise ValueError
  else
    let samples := top_parameters in
    match n with
    | None => Ok (PyArray samples)
    | Some n =>
        match np_broadcast_to samples n with
        | Ok samples => Ok (PyArray samples)
        | Raise e => Raise e
        end
    end.

Definition sample (self : model) (top_parameters : list float)
    (n : option Z) : result sampled :=
  match cls self with
  | Heterogeneous => PopulationModel_sample self top_parameters n
  | LogNormal => LogNormalModel_sample self top_parameters n
  | Pooled => PooledModel_sample self top_parameters n
  end.

(** *** Histories of a model

    Every public operation, and the object each one leaves behind whether
    it returned or raised. *)

Inductive op : Type :=
| OpCall (parameters : list float)
| OpSample (top_parameters : list float) (n : option Z)
| OpSetIds (ids : list label)
| OpSetBottomParameterName (name : label)
| OpSetTopParameterNames (names : list label)
| OpGet.

Definition step (o : op) (self : model) : model :=
  match o with
  | OpCall parameters => let _ := call self parameters in self
  | OpSample top_parameters n => let _ := sample self top_parameters n in self
  | OpSetIds ids => snd (set_ids ids self)
  | OpSetBottomParameterName name => snd (set_bottom_parameter_name name self)
  | OpSetTopParameterNames names => snd (set_top_parameter_names names self)
  | OpGet => self
  end.

(** The models a program can hold: built by a constructor, then used. *)
Inductive reachable : model -> Prop :=
| reach_init (c : class) (n_ids : nat) : reachable (init c n_ids)
| reach_step (o : op) (self : model) :
    reachable self -> reachable (step o self).

End Evaluation.

(** What a constructor fixes and no method assigns again. *)
Definition counts (self : model) : class * nat * nat * nat * nat :=
  (cls self, _n_ids self, _n_bottom_parameters self,
   _n_top_parameters self, _n_parameters self).

(** The model a sequence of operations leaves behind. *)
Definition run {np : NumPy} (ops : list op) (self : model) : model :=
  fold_left (fun s o => step o s) ops self.

(* ================================================================== *)
(** ** Reduced log-densities *)

(** numpy's boolean indexing [a[mask]]: the elements of [a] at the
    positions where [mask] holds, in order. *)
Fixpoint select {A : Type} (mask : list bool) (a : list A) : list A :=
  match mask, a with
  | b :: mask', x :: a' =>
      if b then x :: select mask' a' else select mask' a'
  | _, _ => []
  end.

(** [np.sum(mask)] on a boolean array. *)
Definition np_sum_bool (mask : list bool) : nat := count_occ bool_dec mask true.

Module ReducedLogPDF.

(** Modelled from the spec: the log-density capability of section 9
    ([n_parameters() -> int], [evaluate(params) -> float]); the wrapped
    objects live outside [_population_models.py]. *)
Record LogDensity : Type := {
  wrapped_n_parameters : nat;
  wrapped_evaluate : list float -> float
}.

(** Modelled from the spec: the [ReducedLogPDF] of sections 3 and 4.2,
    whose module [_log_pdfs.py] is only imported by [__init__.py] and
    exercised by [tests/test_log_pdfs.py]. *)
Record t : Type := {
  wrapped : LogDensity;
  mask : list bool;
  values : list float
}.

(** Modelled from the spec: construction (section 4.2).  Of its four
    failures, a wrapped object without the capability and a mask with
    entries that are not boolean are excluded by the types here. *)
Definition make (log_pdf : LogDensity) (mask : list bool)
    (values : list float) : result t :=
  if negb (length mask =? wrapped_n_parameters log_pdf) then Raise ValueError
  else if negb (length values =? np_sum_bool mask) then Raise ValueError
  else Ok {| wrapped := log_pdf; mask := mask; values := values |}.

Definition n_fixed (self : t) : nat := np_sum_bool (mask self).

(** Modelled from the spec: [n_parameters()] is
    [original_n_parameters - n_fixed]. *)
Definition n_parameters (self : t) : nat :=
  wrapped_n_parameters (wrapped self) - n_fixed self.

(** Modelled from the spec: "fixed positions take stored constants, free
    positions take [reduced_params] in order".  One pass over the mask;
    the lengths checked by [make] and [evaluate] keep both sources from
    running dry, where the pass would stop. *)
Fixpoint reconstruct (mask : list bool) (values reduced : list float)
    : list float :=
  match mask with
  | [] => []
  | true :: mask' =>
      match values with
      | v :: values' => v :: reconstruct mask' values' reduced
      | [] => []
      end
  | false :: mask' =>
      match reduced with
      | x :: reduced' => x :: reconstruct mask' values reduced'
      | [] => []
      end
  end.

(** Modelled from the spec: [evaluate(reduced_params)] (section 4.2). *)
Definition evaluate (self : t) (reduced_params : list float) : result float :=
  if negb (length reduced_params =? n_parameters self) then Raise ValueError
  else Ok (wrapped_evaluate (wrapped self)
             (reconstruct (mask self) (values self) reduced_params)).

End ReducedLogPDF.

(* ================================================================== *)
(** ** The data library ([_data_library_api.py]) *)

Module DataLibrary.

Section Frames.
Variable cell : Type.

(** A [pandas.DataFrame] as far as the module looks at it: its columns in
    order, each a label with its values. *)
Definition DataFrame : Type := list (string * list cell).

Definition columns (data : DataFrame) : list string := map fst data.

(** Lookup in a dict literal. *)
Fixpoint dict_get (mapping : list (string * string)) (k : string)
    : option string :=
  match mapping with
  | [] => None
  | (k', v) :: mapping' =>
      if String.eqb k k' then Some v else dict_get mapping' k
  end.

(** [data.rename(columns=mapping)]: a label that is a key of [mapping] is
    replaced by its value, every other label is kept, and a key that names
    no column is ignored. *)
Definition rename (mapping : list (string * string)) (data : DataFrame)
    : DataFrame :=
  map (fun c => (match dict_get mapping (fst c) with
                 | Some v => v
                 | None => fst c
                 end, snd c)) data.

(** The attribute of a [DataLibrary] instance. *)
Record t : Set := { _path : string }.

(** [DataLibrary.__init__]; [module_dir] is
    [os.path.dirname(os.path.abspath(__file__))]. *)
Definition init (module_dir : string) : t :=
  {| _path := module_dir ++ "/data_library/" |}.

(** The dict literal of [lung_cancer_control_group]. *)
Definition generic_keys : list (string * string) :=
  [("#ID", "ID"); ("TIME in day", "Time");
   ("TUMOUR VOLUME in cm^3", "Biomarker")]%string.

(** [DataLibrary.lung_cancer_control_group].  [read_csv] is
    [pandas.read_csv] on the file system at hand; [None] stands for the
    exception it raises when the path names no readable file. *)
Definition lung_cancer_control_group (read_csv : string -> option DataFrame)
    (self : t) (standardised : bool) : option DataFrame :=
  let file_name := "lxf_control_growth.csv"%string in
  match read_csv (_path self ++ file_name)%string with
  | None => None
  | Some data =>
      Some (if standardised then rename generic_keys data else data)
  end.

End Frames.

(** The column labels of the data file that the method replaces. *)
Definition original_key (c : string) : Prop :=
  c = "#ID"%string \/ c = "TIME in day"%string
  \/ c = "TUMOUR VOLUME in cm^3"%string.

End DataLibrary.

(* ================================================================== *)
(** ** A numpy to compute with

    Summation is the left-to-right loop numpy runs on short arrays and a
    power is a repeated product, which is exact for squares.  The logarithm
    is tabulated at 1 alone, the one argument whose logarithm is a binary64
    number, and C's [pow] at the exponent 2 alone, as the rounded product;
    any other argument is answered with NaN, so a run that leaves the
    tables shows it. *)

Definition np_exact : NumPy := {|
  np_log := fun x => if (x =? 1)%float then 0%float else nan;
  np_sum := fun a => fold_left PrimFloat.add a 0%float;
  np_power := fun x k => Z.iter k (PrimFloat.mul x) 1%float;
  libm_pow := fun x y => if (y =? 2)%float then (x * x)%float else nan
|}.

(** A model with a history: identifiers set, a failed and a successful
    renaming, an evaluation and a draw. *)
Definition used_model {np : NumPy} (c : class) (n_ids : nat) : model :=
  step (OpSample [1%float] (Some 2%Z))
    (step (OpCall [1%float])
      (step (OpSetTopParameterNames [LStr "a"; LInt 7])
        (step (OpSetTopParameterNames [LStr "a"])
          (step (OpSetIds (map (fun i => LInt (Z.of_nat i)) (seq 0 n_ids)))
            (init c n_ids))))).

(* ================================================================== *)
(** * Properties *)

(** ** What the setters do, case by case *)

Ltac unfold_methods :=
  unfold set_ids, set_bottom_parameter_name, set_top_parameter_names,
    LogNormalModel_set_top_parameter_names,
    PooledModel_set_top_parameter_names,
    HeterogeneousModel_set_top_parameter_names,
    bind, get_self, raise_if, raise, ret, assign, eval in *.

Lemma neq_eqb (a b : nat) : a <> b <-> negb (a =? b) = true.
Proof.
  rewrite negb_true_iff, Nat.eqb_neq. reflexivity.
Qed.

(** The comprehension raises on the first label that is too long an int,
    and otherwise gives the texts in order. *)
Lemma strs_cases (labels : list label) :
  strs labels
  = if existsb exceeds_str_digits labels then Raise ValueError
    else Ok (map text labels).
Proof.
  induction labels as [| x labels IH]; [reflexivity |].
  cbn [strs existsb map]. unfold str.
  destruct (exceeds_str_digits x); [reflexivity |].
  rewrite IH. cbn [orb].
  destruct (existsb exceeds_str_digits labels); reflexivity.
Qed.

Lemma strs_length (labels : list label) (l : list string) :
  strs labels = Ok l -> length l = length labels.
Proof.
  rewrite strs_cases.
  destruct (existsb exceeds_str_digits labels); [discriminate |].
  intros [= <-]. apply length_map.
Qed.

Lemma set_ids_cases (ids : list label) (self : model) :
  set_ids ids self
  = if negb (length ids =? _n_ids self) then (Raise ValueError, self)
    else match strs ids with
         | Ok labels => (Ok tt, with_ids self (Some labels))
         | Raise e => (Raise e, self)
         end.
Proof.
  unfold_methods. destruct (length ids =? _n_ids self); [| reflexivity].
  cbn [negb]. destruct (strs ids); reflexivity.
Qed.

Lemma set_bottom_parameter_name_cases (name : label) (self : model) :
  set_bottom_parameter_name name self
  = match str name with
    | Ok s => (Ok tt, with_bottom_parameter_name self s)
    | Raise e => (Raise e, self)
    end.
Proof.
  unfold_methods. destruct (str name); reflexivity.
Qed.

Lemma set_top_parameter_names_cases (names : list label) (self : model) :
  set_top_parameter_names names self
  = match cls self with
    | Heterogeneous => (Raise ValueError, self)
    | _ =>
        if negb (length names =? _n_top_parameters self)
        then (Raise ValueError, self)
        else match strs names with
             | Ok labels =>
                 (Ok tt, with_top_parameter_names self (Some labels))
             | Raise e => (Raise e, self)
             end
    end.
Proof.
  unfold_methods.
  destruct (cls self); cbn [fst snd]; try reflexivity;
    (destruct (length names =? _n_top_parameters self); [| reflexivity]);
    cbn [negb]; destruct (strs names); reflexivity.
Qed.

(** ** The counts of a model *)

Lemma set_ids_counts (ids : list label) (self : model) :
  counts (snd (set_ids ids self)) = counts self.
Proof.
  rewrite set_ids_cases.
  destruct (negb (length ids =? _n_ids self)); [reflexivity |].
  destruct (strs ids); reflexivity.
Qed.

Lemma set_bottom_parameter_name_counts (name : label) (self : model) :
  counts (snd (set_bottom_parameter_name name self)) = counts self.
Proof.
  rewrite set_bottom_parameter_name_cases.
  destruct (str name); reflexivity.
Qed.

Lemma set_top_parameter_names_counts (names : list label) (self : model) :
  counts (snd (set_top_parameter_names names self)) = counts self.
Proof.
  rewrite set_top_parameter_names_cases.
  destruct (cls self); try reflexivity;
    (destruct (negb (length names =? _n_top_parameters self));
     [reflexivity |]); destruct (strs names); reflexivity.
Qed.

Lemma step_counts {np : NumPy} (o : op) (self : model) :
  counts (step o self) = counts self.
Proof.
  destruct o; cbn [step]; try reflexivity.
  - apply set_ids_counts.
  - apply set_bottom_parameter_name_counts.
  - apply set_top_parameter_names_counts.
Qed.

Lemma run_counts {np : NumPy} (ops : list op) :
  forall self : model, counts (run ops self) = counts self.
Proof.
  unfold run.
  induction ops as [| o ops IH]; intros self; [reflexivity |].
  cbn [fold_left]. rewrite IH. apply step_counts.
Qed.

Lemma init_counts (c : class) (n : nat) :
  counts (init c n)
  = match c with
    | Heterogeneous => (Heterogeneous, n, n, 0, n + 0)
    | LogNormal => (LogNormal, n, n, 2, n + 2)
    | Pooled => (Pooled, n, 0, 1, 0 + 1)
    end.
Proof. destruct c; reflexivity. Qed.

(** A reachable model still has the counts its constructor gave it. *)
Lemma reachable_counts {np : NumPy} (self : model) :
  reachable self -> counts self = counts (init (cls self) (_n_ids self)).
Proof.
  induction 1 as [c n | o self Hr IH].
  - destruct c; reflexivity.
  - pose proof (step_counts o self) as Hs.
    rewrite Hs.
    assert (Hc : cls (step o self) = cls self)
      by (unfold counts in Hs; congruence).
    assert (Hn : _n_ids (step o self) = _n_ids self)
      by (unfold counts in Hs; congruence).
    rewrite Hc, Hn. exact IH.
Qed.

Lemma reachable_n_top {np : NumPy} (self : model) :
  reachable self ->
  _n_top_parameters self
  = match cls self with Heterogeneous => 0 | LogNormal => 2 | Pooled => 1 end.
Proof.
  intros Hr. pose proof (reachable_counts Hr) as H.
  rewrite init_counts in H. unfold counts in H.
  destruct (cls self); congruence.
Qed.

Lemma used_model_reachable {np : NumPy} (c : class) (n_ids : nat) :
  reachable (used_model c n_ids).
Proof. unfold used_model. repeat apply reach_step. apply reach_init. Qed.

(** C9: a model of any variant, built for any [n_ids] and then put through
    any sequence of operations, returning or raising, is still of its
    variant and still reports the [n_ids] it was built with;
    [n_parameters() = n_bottom_parameters() + n_top_parameters()] holds of
    it; and its counts are the variant's own in terms of the constructor's
    argument: heterogeneous, [n_ids] and 0; pooled, 0 and 1; log-normal,
    [n_ids] and 2. *)
Theorem population_counts_invariant {np : NumPy} (c : class) (n : nat)
    (ops : list op) :
  let self := run ops (init c n) in
  cls self = c
  /\ n_ids self = n
  /\ n_parameters self = n_bottom_parameters self + n_top_parameters self
  /\ (n_bottom_parameters self, n_top_parameters self)
     = match c with
       | Heterogeneous => (n, 0)
       | Pooled => (0, 1)
       | LogNormal => (n, 2)
       end.
Proof.
  intros self. pose proof (run_counts ops (init c n)) as H.
  fold self in H. rewrite init_counts in H.
  unfold n_parameters, n_bottom_parameters, n_top_parameters, n_ids.
  unfold counts in H.
  destruct c; inversion H; repeat split; lia.
Qed.

(** ** Scores *)

(** C5: a heterogeneous and a pooled model score every parameter sequence,
    of any length and with any values, with [0], and never raise. *)
Theorem constant_models_call_zero {np : NumPy} (self : model)
    (parameters : list float) :
  cls self = Heterogeneous \/ cls self = Pooled ->
  call self parameters = Ok (PyInt 0).
Proof.
  unfold call. intros [Hc | Hc]; rewrite Hc; reflexivity.
Qed.

Lemma constant_models_call_zero_witness :
  @call np_exact (@used_model np_exact Pooled 3)
        [nan; infinity; (-1)%float; 0%float] = Ok (PyInt 0)
  /\ @call np_exact (HeterogeneousModel 4) [] = Ok (PyInt 0).
Proof.
  split.
  - apply constant_models_call_zero. right. reflexivity.
  - apply constant_models_call_zero. left. reflexivity.
Defined.

(** Unpacking the slice [parameters[n:]] of a sequence of length [n + 2]
    binds the elements at positions [n] and [n + 1]. *)
Lemma skipn_two (A : Type) (d : A) (n : nat) (l : list A) :
  length l = n + 2 -> skipn n l = [nth n l d; nth (S n) l d].
Proof.
  revert l. induction n as [| n IH]; intros l Hl.
  - destruct l as [| a [| b [| c l]]]; simpl in Hl; try discriminate.
    reflexivity.
  - destruct l as [| a l]; simpl in Hl; [discriminate |].
    simpl skipn. rewrite IH by lia. reflexivity.
Qed.

(** The square of a Python float raises nothing but [OverflowError], and
    raises it exactly on a finite base, other than zero and plus or minus
    one, whose square C's [pow] returns as infinite. *)
Lemma float_pow2_raises {np : NumPy} (iv : float) (e : exn) :
  float_pow2 iv = Raise e
  <-> e = OverflowError
      /\ is_nan iv = false /\ is_infinity iv = false
      /\ (iv =? 0)%float = false /\ (abs iv =? 1)%float = false
      /\ is_infinity (libm_pow (abs iv) 2) = true.
Proof.
  unfold float_pow2.
  destruct (is_nan iv); [split; [discriminate | intuition discriminate] |].
  destruct (is_infinity iv);
    [split; [discriminate | intuition discriminate] |].
  destruct (iv =? 0)%float;
    [split; [discriminate | intuition discriminate] |].
  destruct (abs iv =? 1)%float;
    [split; [discriminate | intuition discriminate] |].
  destruct (is_infinity (libm_pow (abs iv) 2)).
  - split; [intros [= <-]; repeat split | intros (-> & _); reflexivity].
  - split; [discriminate | intuition discriminate].
Qed.

(** C1, as stated, fails: with [mean_log = 1] and [std_log = 2^512], both
    positive, the call does not return the score; squaring [std_log]
    overflows and the call raises [OverflowError]. *)
Lemma LogNormalModel_call_overflows :
  let parameters := [1; 1; 0x1p512]%float in
  (nth 1 parameters 0 <=? 0)%float = false
  /\ (nth 2 parameters 0 <=? 0)%float = false
  /\ @call np_exact (LogNormalModel 1) parameters = Raise OverflowError.
Proof.
  repeat split.
Qed.

(** C1, amended: on a parameter vector of length [n_ids + 2], with
    [mean_log] and [std_log] its last two entries, a log-normal model
    returns negative infinity whenever [mean_log <= 0] or [std_log <= 0],
    whatever the bottom realisations are; otherwise, when [std_log ** 2]
    has a value, it returns
    [-n_ids*log(std_log) - sum(log(params[:n_ids]))
     - sum((log(params[:n_ids]) - mean_log)^2) / (2*std_log^2)],
    and when [std_log ** 2] overflows it raises [OverflowError]. *)
Theorem LogNormalModel_call_spec {np : NumPy} (self : model)
    (parameters : list float) :
  cls self = LogNormal ->
  length parameters = n_ids self + 2 ->
  let mean_log := nth (n_ids self) parameters 0%float in
  let std_log := nth (S (n_ids self)) parameters 0%float in
  let log_psis := map np_log (firstn (n_ids self) parameters) in
  ((mean_log <=? 0)%float = true \/ (std_log <=? 0)%float = true ->
   call self parameters = Ok (PyFloat neg_infinity))
  /\ ((mean_log <=? 0)%float = false /\ (std_log <=? 0)%float = false ->
      (forall std_log_2 : float,
         float_pow2 std_log = Ok std_log_2 ->
         call self parameters
         = Ok (PyFloat
                 (float_of_Z (- Z.of_nat (n_ids self)) * np_log std_log
                  - np_sum log_psis
                  - np_sum (map (fun x => np_power (x - mean_log) 2)
                              log_psis)
                    / (2 * std_log_2))%float))
      /\ (forall e : exn,
            float_pow2 std_log = Raise e ->
            e = OverflowError
            /\ call self parameters = Raise OverflowError)).
Proof.
  intros Hc Hlen mean_log std_log log_psis.
  unfold call, LogNormalModel_call. rewrite Hc.
  unfold n_ids in *.
  rewrite (skipn_two 0%float _ _ Hlen).
  fold mean_log std_log.
  split.
  - intros [H | H]; rewrite H; [reflexivity | ].
    rewrite orb_true_r. reflexivity.
  - intros [Hm Hs]. rewrite Hm, Hs. cbn [orb]. split.
    + intros sq Hsq. rewrite Hsq. reflexivity.
    + intros e He.
      assert (e = OverflowError) as -> by (apply float_pow2_raises in He;
                                           tauto).
      rewrite He. split; reflexivity.
Qed.

Lemma LogNormalModel_call_spec_witness :
  @call np_exact (LogNormalModel 2) [1; 1; 2; 1]%float = Ok (PyFloat (-4))
  /\ @call np_exact (LogNormalModel 2) [1; nan; 2; 0]%float
     = Ok (PyFloat neg_infinity)
  /\ @call np_exact (LogNormalModel 0) [(-3); 1]%float
     = Ok (PyFloat neg_infinity)
  /\ @call np_exact (LogNormalModel 1) [1; 1; 0x1p512]%float
     = Raise OverflowError.
Proof.
  split; [| split; [| split]].
  - exact (proj1 (proj2 (@LogNormalModel_call_spec np_exact
                           (LogNormalModel 2) [1; 1; 2; 1]%float
                           eq_refl eq_refl)
                        (conj eq_refl eq_refl))
                 1%float eq_refl).
  - exact (proj1 (@LogNormalModel_call_spec np_exact (LogNormalModel 2)
                    [1; nan; 2; 0]%float eq_refl eq_refl)
                 (or_intror eq_refl)).
  - exact (proj1 (@LogNormalModel_call_spec np_exact (LogNormalModel 0)
                    [(-3); 1]%float eq_refl eq_refl)
                 (or_introl eq_refl)).
  - exact (proj2 (proj2 (proj2 (@LogNormalModel_call_spec np_exact
                                  (LogNormalModel 1) [1; 1; 0x1p512]%float
                                  eq_refl eq_refl)
                               (conj eq_refl eq_refl))
                        OverflowError eq_refl)).
Defined.

(** ** Sampling *)

(** C3, as stated, fails: for the positive integer [k = 2^60] a pooled
    model given its one top-level parameter returns no values; numpy
    refuses the extent and the call raises. *)
Lemma PooledModel_sample_too_big :
  (0 < 2 ^ 60)%Z
  /\ length [1.5%float] = n_top_parameters (PooledModel 3)
  /\ ~ (exists a : list float,
          sample (PooledModel 3) [1.5%float] (Some (2 ^ 60)%Z)
          = Ok (PyArray a)).
Proof.
  repeat split. intros (a & H). discriminate H.
Qed.

(** C3, amended: a pooled model given its one top-level parameter returns
    that single value, unduplicated, when [n] is [None]; for every positive
    [k] below [2^60] it returns exactly [k] values, each equal to it; and
    from [2^60] on it raises the invalid-argument error. *)
Theorem PooledModel_sample_broadcast {np : NumPy} (self : model)
    (top_parameters : list float) :
  reachable self ->
  cls self = Pooled ->
  length top_parameters = n_top_parameters self ->
  exists x : float,
    top_parameters = [x]
    /\ sample self top_parameters None = Ok (PyArray [x])
    /\ (forall k : Z, (0 < k < max_extent)%Z ->
          exists a : list float,
            sample self top_parameters (Some k) = Ok (PyArray a)
            /\ Z.of_nat (length a) = k
            /\ Forall (fun y => y = x) a)
    /\ (forall k : Z, (max_extent <= k)%Z ->
          sample self top_parameters (Some k) = Raise ValueError).
Proof.
  intros Hr Hc Hlen.
  pose proof (reachable_n_top Hr) as Ht. rewrite Hc in Ht.
  unfold n_top_parameters in Hlen. rewrite Ht in Hlen.
  destruct top_parameters as [| x [| y l]]; simpl in Hlen; try discriminate.
  exists x. unfold sample, PooledModel_sample. rewrite Hc, Ht.
  cbn [length Nat.eqb negb].
  split; [reflexivity |]. split; [reflexivity |]. split.
  - intros k [Hpos Hmax]. unfold np_broadcast_to.
    destruct (k <? 0)%Z eqn:Hneg; [apply Z.ltb_lt in Hneg; lia |].
    destruct (max_extent <=? k)%Z eqn:Hbig; [apply Z.leb_le in Hbig; lia |].
    exists (repeat x (Z.to_nat k)). repeat split.
    + rewrite repeat_length. lia.
    + apply Forall_forall. intros y Hy. apply repeat_spec in Hy. exact Hy.
  - intros k Hmax. unfold np_broadcast_to.
    destruct (k <? 0)%Z; [reflexivity |].
    apply Z.leb_le in Hmax. rewrite Hmax. reflexivity.
Qed.

Lemma PooledModel_sample_broadcast_witness :
  let self := @used_model np_exact Pooled 3 in
  exists x : float,
    [2.5%float] = [x]
    /\ sample self [2.5%float] None = Ok (PyArray [x])
    /\ (forall k : Z, (0 < k < max_extent)%Z ->
          exists a : list float,
            sample self [2.5%float] (Some k) = Ok (PyArray a)
            /\ Z.of_nat (length a) = k
            /\ Forall (fun y => y = x) a)
    /\ (forall k : Z, (max_extent <= k)%Z ->
          sample self [2.5%float] (Some k) = Raise ValueError).
Proof.
  exact (@PooledModel_sample_broadcast np_exact
           (@used_model np_exact Pooled 3) [2.5%float]
           (used_model_reachable Pooled 3) eq_refl eq_refl).
Defined.

(** C4: what the code does where the claim expects [n] log-normal draws.
    Given two top-level parameters, [LogNormalModel.sample] passes its
    length check and ends there: for every model size and every [n],
    absent or not, the call returns [None] and no array. *)
Theorem LogNormalModel_sample_returns_None (n_ids : nat) (n : option Z)
    (mean_log std_log : float) :
  sample (LogNormalModel n_ids) [mean_log; std_log] n = Ok PyNone.
Proof. reflexivity. Qed.

(** ** Validation of lengths *)

(** C7, as stated, fails: a pooled model given one top-level parameter,
    which is its [n_top_parameters], and [n = -1] raises the
    invalid-argument error although the lengths match. *)
Lemma sample_raises_with_matching_length :
  ~ (raises (sample (PooledModel 3) [1.5%float] (Some (-1)%Z)) ValueError
     <-> length [1.5%float] <> n_top_parameters (PooledModel 3)).
Proof.
  intros [Hraise _]. apply Hraise; reflexivity.
Qed.

(** C7, amended: on every model a program can hold, [sample] of a
    log-normal model raises the invalid-argument error exactly when
    [len(top_parameters) != n_top_parameters]; [sample] of a pooled model
    raises it exactly when the lengths differ or [n] is an integer that is
    negative or at least [2^60]; [set_ids] raises it exactly when
    [len(ids) != n_ids] or an identifier is an int of more than 4300
    digits, and otherwise stores the identifiers stringified; and
    [set_top_parameter_names] of a pooled or log-normal model raises it
    exactly when [len(names) != n_top_parameters] or a name is an int of
    more than 4300 digits. *)
Theorem length_validation_exact {np : NumPy} (self : model) :
  reachable self ->
  (forall top_parameters n,
     cls self = LogNormal ->
     (raises (sample self top_parameters n) ValueError
      <-> length top_parameters <> n_top_parameters self))
  /\ (forall top_parameters n,
        cls self = Pooled ->
        (raises (sample self top_parameters n) ValueError
         <-> length top_parameters <> n_top_parameters self
             \/ exists k : Z,
                  n = Some k /\ ((k < 0)%Z \/ (max_extent <= k)%Z)))
  /\ (forall ids,
        (raises (fst (set_ids ids self)) ValueError
         <-> length ids <> n_ids self
             \/ existsb exceeds_str_digits ids = true)
        /\ (length ids = n_ids self ->
            existsb exceeds_str_digits ids = false ->
            fst (set_ids ids self) = Ok tt
            /\ get_ids (snd (set_ids ids self)) = Some (map text ids)))
  /\ (forall names,
        cls self = Pooled \/ cls self = LogNormal ->
        (raises (fst (set_top_parameter_names names self)) ValueError
         <-> length names <> n_top_parameters self
             \/ existsb exceeds_str_digits names = true)).
Proof.
  intros Hr. pose proof (reachable_n_top Hr) as Ht.
  unfold raises, n_top_parameters, n_ids.
  split; [| split; [| split]].
  - intros top n Hc. unfold sample, LogNormalModel_sample. rewrite Hc.
    rewrite neq_eqb.
    destruct (negb (length top =? _n_top_parameters self)); split;
      intros H; try reflexivity; discriminate.
  - intros top n Hc. rewrite Hc in Ht.
    unfold sample, PooledModel_sample. rewrite Hc, Ht.
    destruct (Nat.eq_dec (length top) 1) as [Hlen | Hlen].
    + destruct top as [| x [| y l]]; simpl in Hlen; try discriminate.
      cbn [length Nat.eqb negb]. destruct n as [k |].
      * unfold np_broadcast_to.
        destruct (k <? 0)%Z eqn:Hk.
        { apply Z.ltb_lt in Hk. split; [| reflexivity].
          intros _. right. exists k. split; [reflexivity | left; exact Hk]. }
        apply Z.ltb_ge in Hk.
        destruct (max_extent <=? k)%Z eqn:Hbig.
        { apply Z.leb_le in Hbig. split; [| reflexivity].
          intros _. right. exists k.
          split; [reflexivity | right; exact Hbig]. }
        apply Z.leb_gt in Hbig. split; [discriminate |].
        intros [H | (k' & Hk' & Hrange)]; [congruence |].
        injection Hk' as <-. lia.
      * split; [discriminate |].
        intros [H | (k' & Hk' & _)]; [congruence | discriminate].
    + apply Nat.eqb_neq in Hlen as Hb. rewrite Hb. cbn [negb].
      split; [intros _; left; exact Hlen | reflexivity].
  - intros ids. rewrite set_ids_cases, strs_cases, neq_eqb.
    split.
    + destruct (negb (length ids =? _n_ids self)); cbn [fst].
      * split; [intros _; left | intros _]; reflexivity.
      * destruct (existsb exceeds_str_digits ids); cbn [fst].
        -- split; [intros _; right | intros _]; reflexivity.
        -- split; [discriminate | intros [H | H]; discriminate].
    + intros Hlen Hfit. apply Nat.eqb_eq in Hlen. rewrite Hlen, Hfit.
      split; reflexivity.
  - intros names Hc.
    rewrite set_top_parameter_names_cases, strs_cases, neq_eqb.
    destruct Hc as [Hc | Hc]; rewrite Hc;
      (destruct (negb (length names =? _n_top_parameters self)); cbn [fst];
       [split; [intros _; left | intros _]; reflexivity |]);
      (destruct (existsb exceeds_str_digits names); cbn [fst];
       [split; [intros _; right | intros _]; reflexivity |
        split; [discriminate | intros [H | H]; discriminate]]).
Qed.

Lemma length_validation_exact_witness :
  let self := @used_model np_exact Pooled 3 in
  (raises (sample self [1.5; 2.5]%float None) ValueError
   <-> length [1.5; 2.5]%float <> n_top_parameters self
       \/ exists k : Z,
            @None Z = Some k /\ ((k < 0)%Z \/ (max_extent <= k)%Z))
  /\ (raises (fst (set_ids [LInt 4] self)) ValueError
      <-> length [LInt 4] <> n_ids self
          \/ existsb exceeds_str_digits [LInt 4] = true)
  /\ (fst (set_ids [LInt 4; LStr "b"; LInt (-7)] self) = Ok tt
      /\ get_ids (snd (set_ids [LInt 4; LStr "b"; LInt (-7)] self))
         = Some (map text [LInt 4; LStr "b"; LInt (-7)])).
Proof.
  intro self.
  destruct (@length_validation_exact np_exact self
              (used_model_reachable Pooled 3)) as (_ & Hp & Hi & _).
  split; [| split].
  - exact (Hp [1.5; 2.5]%float None eq_refl).
  - exact (proj1 (Hi [LInt 4])).
  - apply (proj2 (Hi [LInt 4; LStr "b"; LInt (-7)])).
    + reflexivity.
    + vm_compute. reflexivity.
Defined.

(** The digits of an int are counted without its sign, zero has one, and
    a pooled model refuses a draw of [2^60] values but not one of none. *)
Example length_validation_limits :
  (int_digits 12345, int_digits (-12345), int_digits 0) = (5, 5, 1)
  /\ exceeds_str_digits (LInt (10 ^ 20)) = false
  /\ sample (PooledModel 1) [1.5%float] (Some (2 ^ 60)%Z) = Raise ValueError
  /\ sample (PooledModel 1) [1.5%float] (Some (2 ^ 60 - 1)%Z)
     <> Raise ValueError
  /\ sample (PooledModel 1) [1.5%float] (Some 0%Z) = Ok (PyArray []).
Proof.
  split; [reflexivity |]. split; [reflexivity |].
  split; [reflexivity |]. split; [| reflexivity].
  unfold sample, PooledModel_sample, np_broadcast_to.
  cbn [cls PooledModel _n_top_parameters length Nat.eqb negb Nat.add].
  change (2 ^ 60 - 1 <? 0)%Z with false.
  change (max_extent <=? 2 ^ 60 - 1)%Z with false.
  cbn iota. discriminate.
Qed.

(** ** Operations a heterogeneous model does not support *)

(** C8, as stated, fails: naming the top-level parameters of a
    heterogeneous model raises the very exception class that a length
    mismatch raises, so no error of a kind distinct from invalid-argument
    comes out of it. *)
Lemma HeterogeneousModel_set_names_raises_ValueError :
  fst (set_top_parameter_names [LStr "a"; LStr "b"] (PooledModel 2))
  = Raise ValueError
  /\ ~ (exists e : exn,
          fst (set_top_parameter_names [LStr "a"; LStr "b"]
                 (HeterogeneousModel 2)) = Raise e
          /\ e <> ValueError).
Proof.
  split; [reflexivity |].
  intros (e & He & Hne). apply Hne.
  vm_compute in He. congruence.
Qed.

(** C8, amended: on a heterogeneous model [sample] raises, for every
    input, [NotImplementedError], a class distinct from the [ValueError] of
    invalid arguments, and returns no value; [set_top_parameter_names]
    raises for every [names], never a no-op, the class it raises being
    [ValueError], and leaves the model as it was. *)
Theorem HeterogeneousModel_unsupported_operations (self : model)
    (top_parameters : list float) (n : option Z) (names : list label) :
  cls self = Heterogeneous ->
  sample self top_parameters n = Raise NotImplementedError
  /\ NotImplementedError <> ValueError
  /\ set_top_parameter_names names self = (Raise ValueError, self).
Proof.
  intros Hc. split; [| split].
  - unfold sample. rewrite Hc. reflexivity.
  - discriminate.
  - rewrite set_top_parameter_names_cases, Hc. reflexivity.
Qed.

Lemma HeterogeneousModel_unsupported_operations_witness :
  let self := @used_model np_exact Heterogeneous 2 in
  sample self [] (Some 3%Z) = Raise NotImplementedError
  /\ NotImplementedError <> ValueError
  /\ set_top_parameter_names [] self = (Raise ValueError, self).
Proof.
  exact (@HeterogeneousModel_unsupported_operations
           (@used_model np_exact Heterogeneous 2) [] (Some 3%Z) []
           eq_refl).
Defined.

(** ** Failed setters *)

(** C10: when [set_ids] or [set_top_parameter_names] raises, the model is
    exactly as it was before the call, so [get_ids] and
    [get_top_parameter_names] answer as before. *)
Theorem setters_atomic_on_error (self : model) (ids names : list label)
    (e : exn) :
  (fst (set_ids ids self) = Raise e ->
   snd (set_ids ids self) = self
   /\ get_ids (snd (set_ids ids self)) = get_ids self
   /\ get_top_parameter_names (snd (set_ids ids self))
      = get_top_parameter_names self)
  /\ (fst (set_top_parameter_names names self) = Raise e ->
      snd (set_top_parameter_names names self) = self
      /\ get_ids (snd (set_top_parameter_names names self)) = get_ids self
      /\ get_top_parameter_names (snd (set_top_parameter_names names self))
         = get_top_parameter_names self).
Proof.
  split.
  - rewrite set_ids_cases.
    destruct (negb (length ids =? _n_ids self)); cbn [fst snd].
    + intros _. repeat split.
    + destruct (strs ids); cbn [fst snd]; [discriminate |].
      intros _. repeat split.
  - rewrite set_top_parameter_names_cases.
    destruct (cls self); cbn [fst snd];
      try destruct (negb (length names =? _n_top_parameters self));
      cbn [fst snd]; try destruct (strs names); cbn [fst snd];
      intros H; try discriminate; repeat split.
Qed.

Lemma setters_atomic_on_error_witness :
  let self := @used_model np_exact LogNormal 3 in
  get_ids (snd (set_ids [LInt 9] self)) = Some ["0"; "1"; "2"]%string
  /\ get_top_parameter_names (snd (set_top_parameter_names [LInt 9] self))
     = Some ["a"; "7"]%string.
Proof.
  intro self.
  destruct (setters_atomic_on_error self [LInt 9] [LInt 9] ValueError)
    as (Hids & Hnames).
  split.
  - rewrite (proj1 (proj2 (Hids eq_refl))). reflexivity.
  - rewrite (proj2 (proj2 (Hnames eq_refl))). reflexivity.
Defined.

(** ** Reduced log-densities *)

Lemma np_sum_bool_cons (b : bool) (mask : list bool) :
  np_sum_bool (b :: mask) = (if b then 1 else 0) + np_sum_bool mask.
Proof.
  unfold np_sum_bool. simpl.
  destruct (bool_dec b true) as [-> | Hb]; [reflexivity |].
  destruct b; [contradiction | reflexivity].
Qed.

Lemma np_sum_bool_le (mask : list bool) : np_sum_bool mask <= length mask.
Proof.
  induction mask as [| b mask IH]; [apply Nat.le_refl |].
  rewrite np_sum_bool_cons. simpl length. destruct b; lia.
Qed.

(** The vector [reconstruct] builds has the fixed values at the masked
    positions and the free ones at the others. *)
Lemma reconstruct_select (mask : list bool) :
  forall values reduced : list float,
    length values = np_sum_bool mask ->
    length reduced + np_sum_bool mask = length mask ->
    let full := ReducedLogPDF.reconstruct mask values reduced in
    length full = length mask
    /\ select mask full = values
    /\ select (map negb mask) full = reduced.
Proof.
  induction mask as [| b mask IH]; intros values reduced Hv Hr.
  - destruct values; [| discriminate]. destruct reduced; [| discriminate].
    repeat split.
  - rewrite np_sum_bool_cons in Hv, Hr. simpl length in Hr.
    destruct b; cbn [Nat.add] in Hv, Hr.
    + destruct values as [| x values]; [discriminate |].
      simpl in Hv. injection Hv as Hv.
      assert (Hr' : length reduced + np_sum_bool mask = length mask) by lia.
      destruct (IH values reduced Hv Hr') as (Hl & Hs & Hn).
      simpl. rewrite Hl, Hs, Hn. repeat split.
    + pose proof (np_sum_bool_le mask) as Hle.
      destruct reduced as [| x reduced]; [simpl in Hr; lia |].
      simpl in Hv, Hr.
      assert (Hr' : length reduced + np_sum_bool mask = length mask) by lia.
      destruct (IH values reduced Hv Hr') as (Hl & Hs & Hn).
      simpl. rewrite Hl, Hs, Hn. repeat split.
Qed.

(** A vector is rebuilt from its masked and its unmasked entries. *)
Lemma reconstruct_unique (mask : list bool) :
  forall full : list float,
    length full = length mask ->
    ReducedLogPDF.reconstruct mask (select mask full)
      (select (map negb mask) full) = full.
Proof.
  induction mask as [| b mask IH]; intros full Hl.
  - destruct full; [reflexivity | discriminate].
  - destruct full as [| x full]; [discriminate |].
    injection Hl as Hl. destruct b; simpl; rewrite IH by exact Hl;
      reflexivity.
Qed.

(** C2: for a wrapped log-density with [P] parameters, a mask [m] of
    length [P], [sum(m)] fixed values and a free vector [v] of length
    [P - sum(m)], the reduced log-density is built, has
    [P - sum(m)] parameters, and evaluates on [v] to the wrapped
    log-density at [full], the one vector of length [P] whose masked
    entries are the fixed values and whose unmasked entries are [v], both
    in order. *)
Theorem ReducedLogPDF_roundtrip (log_pdf : ReducedLogPDF.LogDensity)
    (m : list bool) (fixed v : list float) :
  let P := ReducedLogPDF.wrapped_n_parameters log_pdf in
  length m = P ->
  length fixed = np_sum_bool m ->
  length v = P - np_sum_bool m ->
  exists reduced : ReducedLogPDF.t,
    ReducedLogPDF.make log_pdf m fixed = Ok reduced
    /\ ReducedLogPDF.n_parameters reduced = P - np_sum_bool m
    /\ (exists full : list float,
          length full = P /\ select m full = fixed
          /\ select (map negb m) full = v)
    /\ (forall full : list float,
          length full = P ->
          select m full = fixed ->
          select (map negb m) full = v ->
          ReducedLogPDF.evaluate reduced v
          = Ok (ReducedLogPDF.wrapped_evaluate log_pdf full)).
Proof.
  intros P Hm Hf Hv.
  pose proof (np_sum_bool_le m) as Hle.
  exists {| ReducedLogPDF.wrapped := log_pdf; ReducedLogPDF.mask := m;
            ReducedLogPDF.values := fixed |}.
  split; [| split; [| split]].
  - unfold ReducedLogPDF.make. fold P.
    apply Nat.eqb_eq in Hm, Hf. rewrite Hm, Hf. reflexivity.
  - reflexivity.
  - exists (ReducedLogPDF.reconstruct m fixed v).
    assert (Hr : length v + np_sum_bool m = length m) by lia.
    destruct (reconstruct_select m fixed v Hf Hr) as (Hl & Hs & Hn).
    rewrite Hl. auto.
  - intros full Hl Hs Hn.
    unfold ReducedLogPDF.evaluate, ReducedLogPDF.n_parameters,
      ReducedLogPDF.n_fixed. simpl. fold P.
    apply Nat.eqb_eq in Hv. rewrite Hv. simpl.
    rewrite <- Hs, <- Hn, reconstruct_unique by congruence. reflexivity.
Qed.

(** The data of [TestReducedLogPDF]: six parameters, three of them fixed
    to 11, 12 and 13; the wrapped log-density here adds its arguments up. *)
Lemma ReducedLogPDF_roundtrip_witness :
  let log_pdf :=
    {| ReducedLogPDF.wrapped_n_parameters := 6;
       ReducedLogPDF.wrapped_evaluate :=
         fun a => fold_left PrimFloat.add a 0%float |} in
  exists reduced : ReducedLogPDF.t,
    ReducedLogPDF.make log_pdf [true; false; false; true; false; true]
      [11; 12; 13]%float = Ok reduced
    /\ ReducedLogPDF.n_parameters reduced = 3
    /\ ReducedLogPDF.evaluate reduced [1; 1; 1]%float = Ok 39%float.
Proof.
  intro log_pdf.
  destruct (@ReducedLogPDF_roundtrip log_pdf
              [true; false; false; true; false; true]
              [11; 12; 13]%float [1; 1; 1]%float eq_refl eq_refl eq_refl)
    as (reduced & Hmake & Hn & _ & Heval).
  exists reduced. split; [exact Hmake |]. split; [exact Hn |].
  exact (Heval [11; 1; 1; 12; 1; 13]%float eq_refl eq_refl eq_refl).
Defined.

(* ================================================================== *)
(** * Further properties of the population models *)

(** ** What a history keeps true *)

Lemma step_cls {np : NumPy} (o : op) (self : model) :
  cls (step o self) = cls self.
Proof.
  pose proof (step_counts o self) as H. unfold counts in H. congruence.
Qed.

Lemma step_n_ids {np : NumPy} (o : op) (self : model) :
  _n_ids (step o self) = _n_ids self.
Proof.
  pose proof (step_counts o self) as H. unfold counts in H. congruence.
Qed.

Lemma step_n_top {np : NumPy} (o : op) (self : model) :
  _n_top_parameters (step o self) = _n_top_parameters self.
Proof.
  pose proof (step_counts o self) as H. unfold counts in H. congruence.
Qed.

Lemma step_ids_length {np : NumPy} (o : op) (self : model) :
  match _ids self with
  | None => True
  | Some ids => length ids = _n_ids self
  end ->
  match _ids (step o self) with
  | None => True
  | Some ids => length ids = _n_ids (step o self)
  end.
Proof.
  intros IH. rewrite step_n_ids.
  destruct o; cbn [step]; try exact IH.
  - rewrite set_ids_cases.
    destruct (length ids =? _n_ids self) eqn:Hlen; cbn [negb snd];
      [| exact IH].
    destruct (strs ids) as [labels | e] eqn:Hs; cbn [snd]; [| exact IH].
    apply Nat.eqb_eq in Hlen. apply strs_length in Hs.
    cbn [with_ids _ids]. congruence.
  - rewrite set_bottom_parameter_name_cases.
    destruct (str name); exact IH.
  - rewrite set_top_parameter_names_cases.
    destruct (cls self); cbn [snd]; try exact IH;
      (destruct (negb (length names =? _n_top_parameters self));
       [exact IH |]); destruct (strs names); exact IH.
Qed.

(** X1: the identifiers of a model a program can hold are either unset or as
    many as the model has individuals. *)
Theorem ids_length_invariant {np : NumPy} (self : model) :
  reachable self ->
  match get_ids self with
  | None => True
  | Some ids => length ids = n_ids self
  end.
Proof.
  induction 1 as [c n | o self Hr IH]; [destruct c; exact I |].
  apply step_ids_length. exact IH.
Qed.

Lemma ids_length_invariant_witness :
  match get_ids (@used_model np_exact LogNormal 3) with
  | None => True
  | Some ids => length ids = n_ids (@used_model np_exact LogNormal 3)
  end.
Proof.
  exact (@ids_length_invariant np_exact _ (used_model_reachable LogNormal 3)).
Defined.

Lemma step_names_length {np : NumPy} (o : op) (self : model) :
  match cls self with
  | Heterogeneous => _top_parameter_names self = None
  | LogNormal | Pooled =>
      exists names : list string,
        _top_parameter_names self = Some names
        /\ length names = _n_top_parameters self
  end ->
  match cls (step o self) with
  | Heterogeneous => _top_parameter_names (step o self) = None
  | LogNormal | Pooled =>
      exists names : list string,
        _top_parameter_names (step o self) = Some names
        /\ length names = _n_top_parameters (step o self)
  end.
Proof.
  intros IH. rewrite step_cls, step_n_top.
  destruct o; cbn [step]; try exact IH.
  - rewrite set_ids_cases.
    destruct (negb (length ids =? _n_ids self)); [exact IH |].
    destruct (strs ids); exact IH.
  - rewrite set_bottom_parameter_name_cases.
    destruct (str name); exact IH.
  - rewrite set_top_parameter_names_cases.
    destruct (cls self) eqn:Hc; cbn [snd]; [exact IH | |];
      (destruct (length names =? _n_top_parameters self) eqn:Hlen;
       cbn [negb snd]; [| exact IH]);
      (destruct (strs names) as [labels | e] eqn:Hs; cbn [snd];
       [| exact IH]);
      apply Nat.eqb_eq in Hlen; apply strs_length in Hs;
      exists labels; (split; [reflexivity |]);
      cbn [with_top_parameter_names _n_top_parameters]; congruence.
Qed.

(** X2: a heterogeneous model a program can hold never has top-level parameter
    names; a pooled or log-normal one always has them, and exactly
    [n_top_parameters] of them, whatever was renamed before. *)
Theorem top_parameter_names_invariant {np : NumPy} (self : model) :
  reachable self ->
  match cls self with
  | Heterogeneous => get_top_parameter_names self = None
  | LogNormal | Pooled =>
      exists names : list string,
        get_top_parameter_names self = Some names
        /\ length names = n_top_parameters self
  end.
Proof.
  induction 1 as [c n | o self Hr IH].
  - destruct c; simpl; [reflexivity | |]; eexists; split; reflexivity.
  - apply step_names_length. exact IH.
Qed.

Lemma top_parameter_names_invariant_witness :
  (exists names : list string,
     get_top_parameter_names (@used_model np_exact Pooled 3) = Some names
     /\ length names = n_top_parameters (@used_model np_exact Pooled 3))
  /\ get_top_parameter_names (@used_model np_exact Heterogeneous 3) = None.
Proof.
  split.
  - exact (@top_parameter_names_invariant np_exact _
             (used_model_reachable Pooled 3)).
  - exact (@top_parameter_names_invariant np_exact _
             (used_model_reachable Heterogeneous 3)).
Defined.

(** X3: identifiers and names, once set, are never cleared: no operation,
    returning or raising, puts [None] back. *)
Theorem ids_and_names_never_cleared {np : NumPy} (o : op) (self : model) :
  (get_ids self <> None -> get_ids (step o self) <> None)
  /\ (get_top_parameter_names self <> None ->
      get_top_parameter_names (step o self) <> None).
Proof.
  unfold get_ids, get_top_parameter_names.
  destruct o; cbn [step]; try (split; intros H; exact H).
  - rewrite set_ids_cases.
    destruct (negb (length ids =? _n_ids self)); cbn [snd];
      try destruct (strs ids); cbn [snd with_ids _ids _top_parameter_names];
      split; intros H; try exact H; discriminate.
  - rewrite set_bottom_parameter_name_cases.
    destruct (str name); split; intros H; exact H.
  - rewrite set_top_parameter_names_cases.
    destruct (cls self); cbn [snd];
      try destruct (negb (length names =? _n_top_parameters self));
      cbn [snd]; try destruct (strs names);
      cbn [snd with_top_parameter_names _ids _top_parameter_names];
      split; intros H; try exact H; discriminate.
Qed.

Lemma ids_and_names_never_cleared_witness :
  get_ids (@step np_exact (OpSetIds [LInt 1])
             (@used_model np_exact Pooled 3)) <> None
  /\ get_top_parameter_names
       (@step np_exact (OpSetTopParameterNames [])
          (@used_model np_exact Pooled 3)) <> None.
Proof.
  split.
  - apply (proj1 (@ids_and_names_never_cleared np_exact (OpSetIds [LInt 1])
                    (@used_model np_exact Pooled 3))).
    discriminate.
  - apply (proj2 (@ids_and_names_never_cleared np_exact
                    (OpSetTopParameterNames [])
                    (@used_model np_exact Pooled 3))).
    discriminate.
Defined.

(** ** Scores and samples do not depend on the history *)

Lemma call_counts {np : NumPy} (self self' : model)
    (parameters : list float) :
  counts self = counts self' -> call self parameters = call self' parameters.
Proof.
  intros H. unfold counts in H.
  assert (Hc : cls self = cls self') by congruence.
  assert (Hn : _n_ids self = _n_ids self') by congruence.
  unfold call, LogNormalModel_call, HeterogeneousModel_call,
    PooledModel_call.
  rewrite Hc, Hn. reflexivity.
Qed.

Lemma sample_counts (self self' : model) (top_parameters : list float)
    (n : option Z) :
  counts self = counts self' ->
  sample self top_parameters n = sample self' top_parameters n.
Proof.
  intros H. unfold counts in H.
  assert (Hc : cls self = cls self') by congruence.
  assert (Ht : _n_top_parameters self = _n_top_parameters self')
    by congruence.
  unfold sample, LogNormalModel_sample, PooledModel_sample,
    PopulationModel_sample.
  rewrite Hc, Ht. reflexivity.
Qed.

(** X4: whatever identifiers and names a model was given, and whatever calls
    failed on it, it scores and samples exactly as a freshly constructed
    model of its class and size does. *)
Theorem scores_and_samples_history_independent {np : NumPy} (self : model)
    (parameters top_parameters : list float) (n : option Z) :
  reachable self ->
  call self parameters = call (init (cls self) (n_ids self)) parameters
  /\ sample self top_parameters n
     = sample (init (cls self) (n_ids self)) top_parameters n.
Proof.
  intros Hr. pose proof (reachable_counts Hr) as H. unfold n_ids.
  split; [apply call_counts | apply sample_counts]; exact H.
Qed.

Lemma scores_and_samples_history_independent_witness :
  @call np_exact (@used_model np_exact LogNormal 2) [1; 1; 2; 1]%float
  = Ok (PyFloat (-4))
  /\ sample (@used_model np_exact Pooled 2) [3%float] (Some 2%Z)
     = Ok (PyArray [3; 3]%float).
Proof.
  destruct (@scores_and_samples_history_independent np_exact
              (@used_model np_exact LogNormal 2) [1; 1; 2; 1]%float [] None
              (used_model_reachable LogNormal 2)) as [Hcall _].
  destruct (@scores_and_samples_history_independent np_exact
              (@used_model np_exact Pooled 2) [] [3%float] (Some 2%Z)
              (used_model_reachable Pooled 2)) as [_ Hsample].
  split; [rewrite Hcall | rewrite Hsample]; reflexivity.
Defined.

(** ** What a log-normal model raises *)

Lemma skipn_two_iff (A : Type) (n : nat) (l : list A) :
  (exists a b, skipn n l = [a; b]) <-> length l = n + 2.
Proof.
  split.
  - intros (a & b & H).
    pose proof (length_skipn n l) as Hl. rewrite H in Hl. simpl in Hl.
    lia.
  - intros H. destruct l as [| d l]; [simpl in H; lia |].
    exists (nth n (d :: l) d), (nth (S n) (d :: l) d).
    apply skipn_two. exact H.
Qed.

(** On any other length than [n_ids + 2] the unpacking fails. *)
Lemma LogNormalModel_call_wrong_length {np : NumPy} (self : model)
    (parameters : list float) :
  length parameters <> _n_ids self + 2 ->
  LogNormalModel_call self parameters = Raise ValueError.
Proof.
  intros Hlen. unfold LogNormalModel_call.
  pose proof (skipn_two_iff (_n_ids self) parameters) as Hiff.
  destruct (skipn (_n_ids self) parameters) as [| a [| b [| c l]]];
    try reflexivity.
  exfalso. apply Hlen. apply Hiff. eauto.
Qed.

(** X5: a log-normal model raises [ValueError] exactly on the parameter
    sequences whose length is not [n_parameters], shorter or longer, where
    the unpacking of [parameters[n_ids:]] into two names fails; it raises
    [OverflowError] exactly on those of the right length that pass the
    guard and whose [std_log ** 2] overflows; and it raises nothing
    else. *)
Theorem LogNormalModel_call_raises_iff {np : NumPy} (self : model)
    (parameters : list float) :
  reachable self ->
  cls self = LogNormal ->
  let mean_log := nth (n_ids self) parameters 0%float in
  let std_log := nth (S (n_ids self)) parameters 0%float in
  (call self parameters = Raise ValueError
   <-> length parameters <> n_parameters self)
  /\ (call self parameters = Raise OverflowError
      <-> length parameters = n_parameters self
          /\ (mean_log <=? 0)%float = false
          /\ (std_log <=? 0)%float = false
          /\ float_pow2 std_log = Raise OverflowError)
  /\ (forall e : exn,
        call self parameters = Raise e ->
        e = ValueError \/ e = OverflowError).
Proof.
  intros Hr Hc mean_log std_log.
  pose proof (reachable_counts Hr) as Hk.
  rewrite init_counts, Hc in Hk. unfold counts in Hk.
  assert (Hp : n_parameters self = _n_ids self + 2)
    by (unfold n_parameters; congruence).
  rewrite Hp. unfold n_ids in *.
  unfold call. rewrite Hc.
  destruct (Nat.eq_dec (length parameters) (_n_ids self + 2)) as [Hl | Hl].
  - unfold LogNormalModel_call.
    rewrite (skipn_two 0%float _ _ Hl). fold mean_log std_log.
    destruct (mean_log <=? 0)%float; cbn [orb].
    { repeat split; try discriminate; try tauto.
      intros (_ & H & _). discriminate H. }
    destruct (std_log <=? 0)%float.
    { repeat split; try discriminate; try tauto.
      intros (_ & _ & H & _). discriminate H. }
    destruct (float_pow2 std_log) as [sq | e] eqn:Hsq.
    { repeat split; try discriminate; try tauto.
      intros (_ & _ & _ & H). discriminate H. }
    assert (e = OverflowError) as ->
      by (apply float_pow2_raises in Hsq; tauto).
    repeat split; try discriminate; try tauto.
    intros e [= <-]. right. reflexivity.
  - rewrite (LogNormalModel_call_wrong_length _ _ Hl).
    repeat split; try discriminate; try tauto.
    intros e [= <-]. left. reflexivity.
Qed.

Lemma LogNormalModel_call_raises_iff_witness :
  @call np_exact (@used_model np_exact LogNormal 2) [1; 1; 2]%float
  = Raise ValueError
  /\ @call np_exact (@used_model np_exact LogNormal 2) [1; 1; 2; 1; 1]%float
     = Raise ValueError
  /\ @call np_exact (@used_model np_exact LogNormal 2)
       [1; 1; 2; 0x1p512]%float
     = Raise OverflowError.
Proof.
  split; [| split].
  - apply (proj1 (@LogNormalModel_call_raises_iff np_exact
                    (@used_model np_exact LogNormal 2) [1; 1; 2]%float
                    (used_model_reachable LogNormal 2) eq_refl)).
    discriminate.
  - apply (proj1 (@LogNormalModel_call_raises_iff np_exact
                    (@used_model np_exact LogNormal 2)
                    [1; 1; 2; 1; 1]%float
                    (used_model_reachable LogNormal 2) eq_refl)).
    discriminate.
  - apply (proj1 (proj2 (@LogNormalModel_call_raises_iff np_exact
                           (@used_model np_exact LogNormal 2)
                           [1; 1; 2; 0x1p512]%float
                           (used_model_reachable LogNormal 2) eq_refl))).
    repeat split.
Defined.

(** ** How the setters compose *)

(** Rewrites every setter call in the goal into its cases and decides
    them with the equations at hand. *)
Ltac setter_cases :=
  repeat (progress
            (rewrite ?set_ids_cases, ?set_top_parameter_names_cases,
               ?set_bottom_parameter_name_cases;
             cbn [fst snd negb cls _n_ids _n_top_parameters with_ids
                  with_top_parameter_names with_bottom_parameter_name];
             repeat match goal with
                    | H : ?lhs = _ |- context [?lhs] => rewrite H
                    end)).

(** X6: a later [set_ids] (or [set_top_parameter_names]) that returns
    overrides an earlier one entirely, whether the earlier one returned or
    raised; one that raises leaves the earlier result in place; and its
    outcome never depends on the earlier call. *)
Theorem setters_last_write_wins (self : model) (ids1 ids2 : list label)
    (names1 names2 : list label) :
  let s1 := snd (set_ids ids1 self) in
  let t1 := snd (set_top_parameter_names names1 self) in
  (fst (set_ids ids2 s1) = fst (set_ids ids2 self)
   /\ (fst (set_ids ids2 self) = Ok tt ->
       snd (set_ids ids2 s1) = snd (set_ids ids2 self))
   /\ (fst (set_ids ids2 self) <> Ok tt -> snd (set_ids ids2 s1) = s1))
  /\ (fst (set_top_parameter_names names2 t1)
      = fst (set_top_parameter_names names2 self)
      /\ (fst (set_top_parameter_names names2 self) = Ok tt ->
          snd (set_top_parameter_names names2 t1)
          = snd (set_top_parameter_names names2 self))
      /\ (fst (set_top_parameter_names names2 self) <> Ok tt ->
          snd (set_top_parameter_names names2 t1) = t1)).
Proof.
  intros s1 t1. subst s1 t1. split.
  - destruct (negb (length ids1 =? _n_ids self)) eqn:Hi1;
      destruct (negb (length ids2 =? _n_ids self)) eqn:Hi2;
      destruct (strs ids1) eqn:Hs1; destruct (strs ids2) eqn:Hs2;
      setter_cases; repeat split; intros H;
      try reflexivity; try discriminate H; exfalso; apply H; reflexivity.
  - destruct (cls self) eqn:Hc;
      destruct (negb (length names1 =? _n_top_parameters self)) eqn:Hn1;
      destruct (negb (length names2 =? _n_top_parameters self)) eqn:Hn2;
      destruct (strs names1) eqn:Ht1; destruct (strs names2) eqn:Ht2;
      setter_cases; repeat split; intros H;
      try reflexivity; try discriminate H; exfalso; apply H; reflexivity.
Qed.

Lemma setters_last_write_wins_witness :
  get_ids (snd (set_ids [LInt 8; LInt 9]
                  (snd (set_ids [LStr "a"; LStr "b"] (PooledModel 2)))))
  = Some ["8"; "9"]%string
  /\ get_ids (snd (set_ids [LInt 8]
                     (snd (set_ids [LStr "a"; LStr "b"] (PooledModel 2)))))
     = Some ["a"; "b"]%string.
Proof.
  destruct (setters_last_write_wins (PooledModel 2) [LStr "a"; LStr "b"]
              [LInt 8; LInt 9] [] []) as ((_ & Hwin & _) & _).
  destruct (setters_last_write_wins (PooledModel 2) [LStr "a"; LStr "b"]
              [LInt 8] [] []) as ((_ & _ & Hkeep) & _).
  split.
  - rewrite Hwin by (vm_compute; reflexivity). vm_compute. reflexivity.
  - rewrite Hkeep by (vm_compute; discriminate). vm_compute. reflexivity.
Defined.


(** ** Reading back what was set *)

Lemma strs_LStr (l : list string) : strs (map LStr l) = Ok l.
Proof.
  induction l as [| s l IH]; [reflexivity |].
  cbn [map strs]. rewrite IH. reflexivity.
Qed.

(** X8: handing a model the identifiers, or the top-level names, it already
    reports is accepted and changes nothing. *)
Theorem set_what_was_got_is_noop {np : NumPy} (self : model) :
  reachable self ->
  (forall ids : list string,
     get_ids self = Some ids ->
     set_ids (map LStr ids) self = (Ok tt, self))
  /\ (forall names : list string,
        get_top_parameter_names self = Some names ->
        set_top_parameter_names (map LStr names) self = (Ok tt, self)).
Proof.
  intros Hr.
  assert (Hi : match _ids self with
               | None => True
               | Some ids => length ids = _n_ids self
               end).
  { induction Hr as [c n | o self Hr IH]; [destruct c; exact I |].
    apply step_ids_length. exact IH. }
  assert (Ht : match cls self with
               | Heterogeneous => _top_parameter_names self = None
               | LogNormal | Pooled =>
                   exists names : list string,
                     _top_parameter_names self = Some names
                     /\ length names = _n_top_parameters self
               end).
  { clear Hi. induction Hr as [c n | o self Hr IH].
    - destruct c; simpl; [reflexivity | |]; eexists; split; reflexivity.
    - apply step_names_length. exact IH. }
  unfold get_ids, get_top_parameter_names, n_ids, n_top_parameters in *.
  split.
  - intros ids Hids. rewrite Hids in Hi.
    rewrite set_ids_cases, length_map, strs_LStr.
    apply Nat.eqb_eq in Hi. rewrite Hi. cbn [negb].
    destruct self; simpl in *. subst. reflexivity.
  - intros names Hnames.
    rewrite set_top_parameter_names_cases, length_map, strs_LStr.
    destruct (cls self) eqn:Hc.
    + congruence.
    + destruct Ht as (names' & Hn' & Hlen).
      assert (names' = names) by congruence. subst names'.
      apply Nat.eqb_eq in Hlen. rewrite Hlen. cbn [negb].
      destruct self; simpl in *. subst. reflexivity.
    + destruct Ht as (names' & Hn' & Hlen).
      assert (names' = names) by congruence. subst names'.
      apply Nat.eqb_eq in Hlen. rewrite Hlen. cbn [negb].
      destruct self; simpl in *. subst. reflexivity.
Qed.

Lemma set_what_was_got_is_noop_witness :
  let self := @used_model np_exact LogNormal 3 in
  set_ids (map LStr ["0"; "1"; "2"]%string) self = (Ok tt, self)
  /\ set_top_parameter_names (map LStr ["a"; "7"]%string) self
     = (Ok tt, self).
Proof.
  intro self.
  destruct (@set_what_was_got_is_noop np_exact self
              (used_model_reachable LogNormal 3)) as [Hi Hn].
  split; [exact (Hi _ eq_refl) | exact (Hn _ eq_refl)].
Defined.

(** X9: a pooled or log-normal model given as many names as it has
    top-level parameters, none of them an int of more than 4300 digits,
    returns normally and reports them back stringified, with identifiers
    and bottom name untouched; [set_bottom_parameter_name] raises, with
    the model unchanged, exactly when its argument is such an int, and
    otherwise is read back stringified; it never touches identifiers or
    top-level names; and [set_ids] touches neither kind of name. *)
Theorem setters_read_back (self : model) (ids names : list label)
    (name : label) :
  (cls self <> Heterogeneous ->
   length names = n_top_parameters self ->
   existsb exceeds_str_digits names = false ->
   let self' := snd (set_top_parameter_names names self) in
   fst (set_top_parameter_names names self) = Ok tt
   /\ get_top_parameter_names self' = Some (map text names)
   /\ get_ids self' = get_ids self
   /\ get_bottom_parameter_name self' = get_bottom_parameter_name self)
  /\ (let self' := snd (set_bottom_parameter_name name self) in
      (exceeds_str_digits name = false ->
       fst (set_bottom_parameter_name name self) = Ok tt
       /\ get_bottom_parameter_name self' = text name)
      /\ (exceeds_str_digits name = true ->
          set_bottom_parameter_name name self = (Raise ValueError, self))
      /\ get_ids self' = get_ids self
      /\ get_top_parameter_names self' = get_top_parameter_names self)
  /\ (let self' := snd (set_ids ids self) in
      get_top_parameter_names self' = get_top_parameter_names self
      /\ get_bottom_parameter_name self' = get_bottom_parameter_name self).
Proof.
  split; [| split].
  - intros Hc Hlen Hfit. unfold n_top_parameters in Hlen.
    rewrite set_top_parameter_names_cases, strs_cases, Hfit.
    apply Nat.eqb_eq in Hlen. rewrite Hlen.
    destruct (cls self); [contradiction | |]; repeat split.
  - rewrite set_bottom_parameter_name_cases. unfold str.
    destruct (exceeds_str_digits name); repeat split; discriminate.
  - rewrite set_ids_cases.
    destruct (negb (length ids =? _n_ids self)); [repeat split |].
    destruct (strs ids); repeat split.
Qed.

Lemma setters_read_back_witness :
  get_top_parameter_names
    (snd (set_top_parameter_names [LStr "mu"; LInt 2] (LogNormalModel 4)))
  = Some ["mu"; "2"]%string
  /\ get_bottom_parameter_name
       (snd (set_bottom_parameter_name (LInt (-12)) (PooledModel 1)))
     = "-12"%string.
Proof.
  destruct (setters_read_back (LogNormalModel 4) [] [LStr "mu"; LInt 2]
              (LInt 0)) as [H _].
  destruct (H ltac:(discriminate) eq_refl eq_refl) as (_ & Hget & _).
  destruct (setters_read_back (PooledModel 1) [] [] (LInt (-12)))
    as (_ & (Hb & _) & _).
  split; [exact Hget | exact (proj2 (Hb eq_refl))].
Defined.

(** ** Stored identifiers stay distinct *)

Lemma text_LInt_inj (a b : Z) : text (LInt a) = text (LInt b) -> a = b.
Proof.
  unfold text. intros H.
  apply DecimalZ.to_int_inj.
  assert (Hnil : forall z : Z,
             Z.to_int z <> Decimal.Pos Decimal.Nil
             /\ Z.to_int z <> Decimal.Neg Decimal.Nil).
  { intros [| p | p]; simpl; split; try discriminate;
      intros [= Hp]; exact (DecimalPos.Unsigned.to_uint_nonnil p Hp). }
  pose proof (@NilZero.isi (Z.to_int a) (proj1 (Hnil a)) (proj2 (Hnil a)))
    as Ha.
  pose proof (@NilZero.isi (Z.to_int b) (proj1 (Hnil b)) (proj2 (Hnil b)))
    as Hb.
  rewrite H in Ha. congruence.
Qed.

(** X10: pairwise distinct integer identifiers, as many as the model has
    individuals and none of more than 4300 digits, are stored as pairwise
    distinct strings. *)
Theorem set_ids_keeps_integer_ids_distinct (self : model) (zs : list Z) :
  NoDup zs ->
  length zs = n_ids self ->
  existsb exceeds_str_digits (map LInt zs) = false ->
  exists ids : list string,
    get_ids (snd (set_ids (map LInt zs) self)) = Some ids
    /\ length ids = n_ids self
    /\ NoDup ids.
Proof.
  intros Hnd Hlen Hfit. unfold n_ids in *.
  rewrite set_ids_cases, strs_cases, Hfit, length_map.
  apply Nat.eqb_eq in Hlen as Hb. rewrite Hb. cbn [negb snd].
  exists (map text (map LInt zs)). split; [reflexivity |].
  split; [rewrite !length_map; exact Hlen |].
  clear Hlen Hb Hfit. induction Hnd as [| z zs Hin Hnd IH]; simpl.
  - constructor.
  - constructor; [| exact IH].
    intros Hmem. apply in_map_iff in Hmem. destruct Hmem as (x & Hx & Hxin).
    apply in_map_iff in Hxin. destruct Hxin as (z' & <- & Hz').
    apply text_LInt_inj in Hx. subst z'. contradiction.
Qed.

Lemma set_ids_keeps_integer_ids_distinct_witness :
  exists ids : list string,
    get_ids (snd (set_ids (map LInt [10; -3; 0]%Z) (PooledModel 3)))
    = Some ids
    /\ length ids = n_ids (PooledModel 3)
    /\ NoDup ids.
Proof.
  apply set_ids_keeps_integer_ids_distinct; [| reflexivity | reflexivity].
  repeat constructor; simpl; intuition discriminate.
Defined.

(* ================================================================== *)
(** * Properties of the data library *)

Section DataLibraryFacts.
Import DataLibrary.
Variable cell : Type.

Lemma append_assoc (a b c : string) :
  ((a ++ b) ++ c = a ++ (b ++ c))%string.
Proof.
  induction a as [| x a IH]; simpl; [| rewrite IH]; reflexivity.
Qed.

(** The label [rename] with the generic keys gives a column. *)
Lemma generic_label (c : string) :
  let c' := match dict_get generic_keys c with
            | Some v => v
            | None => c
            end in
  ~ original_key c'
  /\ (~ original_key c -> c' = c)
  /\ dict_get generic_keys c' = None.
Proof.
  unfold generic_keys, original_key. simpl.
  destruct (String.eqb_spec c "#ID") as [-> | H1].
  { repeat split; try reflexivity; intuition discriminate. }
  destruct (String.eqb_spec c "TIME in day") as [-> | H2].
  { repeat split; try reflexivity; intuition discriminate. }
  destruct (String.eqb_spec c "TUMOUR VOLUME in cm^3") as [-> | H3].
  { repeat split; try reflexivity; intuition discriminate. }
  split; [intuition congruence |]. split; [reflexivity |].
  destruct (String.eqb_spec c "#ID"); [contradiction |].
  destruct (String.eqb_spec c "TIME in day"); [contradiction |].
  destruct (String.eqb_spec c "TUMOUR VOLUME in cm^3"); [contradiction |].
  reflexivity.
Qed.

(** X11: the library reads the one file [data_library/lxf_control_growth.csv]
    beside the module, and fails exactly when that file cannot be read,
    standardised or not.  Standardising keeps every column's values, their
    number and their order, and leaves no column under one of the three
    original keys. *)
Theorem lung_cancer_control_group_reads
    (read_csv : string -> option (DataFrame cell)) (module_dir : string) :
  let file := (module_dir ++ "/data_library/lxf_control_growth.csv")%string in
  (read_csv file = None ->
   forall standardised : bool,
     lung_cancer_control_group read_csv (init module_dir) standardised
     = None)
  /\ (forall data : DataFrame cell,
        read_csv file = Some data ->
        lung_cancer_control_group read_csv (init module_dir) false
        = Some data
        /\ exists data' : DataFrame cell,
             lung_cancer_control_group read_csv (init module_dir) true
             = Some data'
             /\ map snd data' = map snd data
             /\ length (columns data') = length (columns data)
             /\ Forall (fun c => ~ original_key c) (columns data')).
Proof.
  intros file. unfold lung_cancer_control_group, init. simpl _path.
  rewrite append_assoc. simpl append. fold file.
  split.
  - intros H standardised. rewrite H. reflexivity.
  - intros data H. rewrite H. split; [reflexivity |].
    eexists. split; [reflexivity |].
    unfold rename, columns. rewrite !map_map, !length_map. simpl.
    repeat split.
    apply Forall_forall. intros c Hin.
    apply in_map_iff in Hin. destruct Hin as (col & <- & _).
    exact (proj1 (generic_label (fst col))).
Qed.

(** X12: standardising a standardised frame changes nothing; columns that are
    not under an original key keep their label; and the frame with the
    documented columns ['#ID', 'TIME in day', 'TUMOUR VOLUME in cm^3'] comes
    out with the columns ['ID', 'Time', 'Biomarker']. *)
Theorem rename_generic_keys_idempotent (data : DataFrame cell) :
  rename generic_keys (rename generic_keys data) = rename generic_keys data
  /\ (Forall (fun c => ~ original_key c) (columns data) ->
      rename generic_keys data = data)
  /\ (columns data = ["#ID"; "TIME in day"; "TUMOUR VOLUME in cm^3"]%string ->
      columns (rename generic_keys data)
      = ["ID"; "Time"; "Biomarker"]%string).
Proof.
  split; [| split].
  - unfold rename. rewrite map_map. apply map_ext. intros col.
    cbn [fst snd].
    rewrite (proj2 (proj2 (generic_label (fst col)))). reflexivity.
  - intros Hall. unfold rename, columns in *.
    rewrite <- (map_id data) at 2. apply map_ext_in. intros col Hin.
    rewrite Forall_forall in Hall.
    rewrite (proj1 (proj2 (generic_label (fst col)))).
    + destruct col; reflexivity.
    + apply Hall. apply in_map. exact Hin.
  - unfold columns, rename. rewrite map_map. simpl.
    destruct data as [| [c1 v1] [| [c2 v2] [| [c3 v3] [| c4 data]]]];
      simpl; intros [=]; subst. reflexivity.
Qed.

End DataLibraryFacts.

Lemma lung_cancer_control_group_reads_witness :
  let file := "/opt/erlotinib/data_library/lxf_control_growth.csv"%string in
  let data := [("#ID", [1; 1]); ("TIME in day", [0; 3]);
               ("TUMOUR VOLUME in cm^3", [2; 5]); ("DOSE", [0; 0])]%string in
  let read_csv := fun path : string =>
                    if String.eqb path file then Some data else None in
  exists data' : DataLibrary.DataFrame nat,
    DataLibrary.lung_cancer_control_group read_csv
      (DataLibrary.init "/opt/erlotinib") true = Some data'
    /\ map snd data' = map snd data
    /\ length (DataLibrary.columns data') = length (DataLibrary.columns data)
    /\ Forall (fun c => ~ DataLibrary.original_key c)
         (DataLibrary.columns data').
Proof.
  intros file data read_csv.
  exact (proj2 (proj2 (@lung_cancer_control_group_reads nat read_csv
                         "/opt/erlotinib") data eq_refl)).
Defined.

Lemma rename_generic_keys_idempotent_witness :
  let data := [("#ID", [1; 1]); ("TIME in day", [0; 3]);
               ("TUMOUR VOLUME in cm^3", [2; 5])]%string in
  DataLibrary.columns (DataLibrary.rename DataLibrary.generic_keys data)
  = ["ID"; "Time"; "Biomarker"]%string.
Proof.
  intro data.
  exact (proj2 (proj2 (@rename_generic_keys_idempotent nat data)) eq_refl).
Defined.
